(** * RADIUS splash-page authentication server (server.js): a shallow embedding

    The development follows [src/server.js]:
    - JavaScript values as the request body and the decoded RADIUS packet hold them;
    - the process environment and the configuration constants read from it;
    - the [radius] npm package's [encode]/[decode] (an external library, modelled
      after RFC 2865: header, TLV attributes, MD5-based password hiding);
    - [authenticateWithRadius]: the per-attempt state (socket, listeners,
      [clientClosed], [timeoutId], the Promise) and its event handlers;
    - the [POST /auth/radius] handler. *)

From Stdlib Require Import ZArith String Ascii Lia.
From stdpp Require Import base gmap strings list.

Open Scope Z_scope.
Import ListNotations.

(* ================================================================== *)
(** ** JavaScript values *)

Inductive jsval :=
| JUndefined
| JNull
| JBool (b : bool)
| JNum (n : Z)
| JStr (s : string)
| JObj.

(** JavaScript truthiness (NaN is not representable and never arises here). *)
Definition truthy (v : jsval) : bool :=
  match v with
  | JUndefined | JNull => false
  | JBool b => b
  | JNum n => negb (n =? 0)
  | JStr s => negb (String.eqb s "")
  | JObj => true
  end.

(** Strict equality [v === s] against a string constant. *)
Definition js_eq_str (v : jsval) (s : string) : bool :=
  match v with
  | JStr t => String.eqb t s
  | _ => false
  end.

(** [process.env]: names to strings; absent names read as [undefined]. *)
Abbreviation environment := (gmap string string).

(** [process.env.K || d] *)
Definition env_or (env : environment) (k d : string) : string :=
  match env !! k with
  | Some s => if String.eqb s "" then d else s
  | None => d
  end.

(* ================================================================== *)
(** ** Bytes and MD5 (used by the radius package) *)

Definition bytes := list Z.

Definition w32 (x : Z) : Z := x mod 2 ^ 32.
Definition add32 (a b : Z) : Z := w32 (a + b).
Definition not32 (x : Z) : Z := Z.lxor x (2 ^ 32 - 1).
Definition rotl32 (x c : Z) : Z :=
  w32 (Z.lor (Z.shiftl x c) (Z.shiftr x (32 - c))).

Definition md5_K : list Z :=
  [0xd76aa478; 0xe8c7b756; 0x242070db; 0xc1bdceee; 0xf57c0faf; 0x4787c62a; 0xa8304613; 0xfd469501;
   0x698098d8; 0x8b44f7af; 0xffff5bb1; 0x895cd7be; 0x6b901122; 0xfd987193; 0xa679438e; 0x49b40821;
   0xf61e2562; 0xc040b340; 0x265e5a51; 0xe9b6c7aa; 0xd62f105d; 0x02441453; 0xd8a1e681; 0xe7d3fbc8;
   0x21e1cde6; 0xc33707d6; 0xf4d50d87; 0x455a14ed; 0xa9e3e905; 0xfcefa3f8; 0x676f02d9; 0x8d2a4c8a;
   0xfffa3942; 0x8771f681; 0x6d9d6122; 0xfde5380c; 0xa4beea44; 0x4bdecfa9; 0xf6bb4b60; 0xbebfbc70;
   0x289b7ec6; 0xeaa127fa; 0xd4ef3085; 0x04881d05; 0xd9d4d039; 0xe6db99e5; 0x1fa27cf8; 0xc4ac5665;
   0xf4292244; 0x432aff97; 0xab9423a7; 0xfc93a039; 0x655b59c3; 0x8f0ccc92; 0xffeff47d; 0x85845dd1;
   0x6fa87e4f; 0xfe2ce6e0; 0xa3014314; 0x4e0811a1; 0xf7537e82; 0xbd3af235; 0x2ad7d2bb; 0xeb86d391].

Definition md5_S : list Z :=
  [7; 12; 17; 22; 7; 12; 17; 22; 7; 12; 17; 22; 7; 12; 17; 22;
   5; 9; 14; 20; 5; 9; 14; 20; 5; 9; 14; 20; 5; 9; 14; 20;
   4; 11; 16; 23; 4; 11; 16; 23; 4; 11; 16; 23; 4; 11; 16; 23;
   6; 10; 15; 21; 6; 10; 15; 21; 6; 10; 15; 21; 6; 10; 15; 21].

Definition nth_z (l : list Z) (i : nat) : Z := List.nth i l 0.

(** little-endian 32-bit word of four bytes *)
Definition le32 (b0 b1 b2 b3 : Z) : Z :=
  b0 + Z.shiftl b1 8 + Z.shiftl b2 16 + Z.shiftl b3 24.

Fixpoint words_of (l : bytes) : list Z :=
  match l with
  | b0 :: b1 :: b2 :: b3 :: r => le32 b0 b1 b2 b3 :: words_of r
  | _ => []
  end.

Definition bytes_of_word (w : Z) : bytes :=
  [Z.land w 255; Z.land (Z.shiftr w 8) 255; Z.land (Z.shiftr w 16) 255; Z.land (Z.shiftr w 24) 255].

Definition md5_round (m : list Z) (st : Z * Z * Z * Z) (i : nat) : Z * Z * Z * Z :=
  let '(a, b, c, d) := st in
  let '(f, g) :=
    if (i <? 16)%nat then (Z.lor (Z.land b c) (Z.land (not32 b) d), i)
    else if (i <? 32)%nat then (Z.lor (Z.land d b) (Z.land (not32 d) c), ((5 * i + 1) mod 16)%nat)
    else if (i <? 48)%nat then (Z.lxor b (Z.lxor c d), ((3 * i + 5) mod 16)%nat)
    else (Z.lxor c (Z.lor b (not32 d)), ((7 * i) mod 16)%nat) in
  let f' := add32 (add32 (add32 f a) (nth_z md5_K i)) (nth_z m g) in
  (d, add32 b (rotl32 f' (nth_z md5_S i)), b, c).

Definition md5_block (st : Z * Z * Z * Z) (m : list Z) : Z * Z * Z * Z :=
  let '(a, b, c, d) := st in
  let '(a', b', c', d') := List.fold_left (md5_round m) (List.seq 0 64) st in
  (add32 a a', add32 b b', add32 c c', add32 d d').

Fixpoint md5_blocks (fuel : nat) (st : Z * Z * Z * Z) (l : bytes) : Z * Z * Z * Z :=
  match fuel with
  | O => st
  | S fuel' =>
      match l with
      | [] => st
      | _ => md5_blocks fuel' (md5_block st (words_of (List.firstn 64 l))) (List.skipn 64 l)
      end
  end.

Definition md5_pad (l : bytes) : bytes :=
  let n := Z.of_nat (length l) in
  let zeros := Z.to_nat ((55 - n) mod 64) in
  l ++ [128] ++ List.repeat 0 zeros ++ bytes_of_word (w32 (8 * n)) ++ bytes_of_word (Z.shiftr (8 * n) 32).

Definition md5 (l : bytes) : bytes :=
  let p := md5_pad l in
  let '(a, b, c, d) := md5_blocks (length p) (0x67452301, 0xefcdab89, 0x98badcfe, 0x10325476) p in
  bytes_of_word a ++ bytes_of_word b ++ bytes_of_word c ++ bytes_of_word d.

Definition bytes_of_string (s : string) : bytes :=
  List.map (fun a => Z.of_N (Ascii.N_of_ascii a)) (list_ascii_of_string s).

Definition string_of_bytes (l : bytes) : string :=
  string_of_list_ascii (List.map (fun z => Ascii.ascii_of_N (Z.to_N z)) l).

(* ================================================================== *)
(** ** The [radius] package (external library), after RFC 2865

    [server.js] only calls [radius.encode({code, identifier, attributes, secret})]
    and [radius.decode({packet, secret})].  The model below follows the RFC 2865
    wire format the package implements.  The request authenticator is generated
    randomly inside [encode]; it is an explicit argument here. *)

(** A call that may throw. *)
Inductive throws (A : Type) :=
| Ok (a : A)
| Throw (msg : string).
Arguments Ok {A} a.
Arguments Throw {A} msg.

Definition ok_value {A} (t : throws A) : option A :=
  match t with Ok a => Some a | Throw _ => None end.

Record radius_packet := {
  rp_code : string;
  rp_identifier : Z;
  rp_authenticator : bytes;
  rp_attributes : gmap string jsval
}.

Definition code_names : list (Z * string) :=
  [(1, "Access-Request"); (2, "Access-Accept"); (3, "Access-Reject");
   (4, "Accounting-Request"); (5, "Accounting-Response");
   (11, "Access-Challenge"); (12, "Status-Server"); (13, "Status-Client")]%string.

Definition code_name (c : Z) : option string :=
  snd <$> List.find (fun e => fst e =? c) code_names.

Definition code_number (s : string) : option Z :=
  fst <$> List.find (fun e => String.eqb (snd e) s) code_names.

(** Dictionary entries used by this server: name and whether the value is an integer. *)
Definition attr_name (t : Z) : option (string * bool) :=
  match t with
  | 1 => Some ("User-Name"%string, false) | 2 => Some ("User-Password"%string, false)
  | 4 => Some ("NAS-IP-Address"%string, false) | 5 => Some ("NAS-Port"%string, true)
  | 11 => Some ("Filter-Id"%string, false) | 18 => Some ("Reply-Message"%string, false)
  | 25 => Some ("Class"%string, false)
  | _ => None
  end.

Definition be_value (l : bytes) : Z := List.fold_left (fun acc b => acc * 256 + b) l 0.

(** Walk the TLV attribute sequence; a later attribute of the same name overwrites. *)
Fixpoint decode_attributes (fuel : nat) (l : bytes) (acc : gmap string jsval)
  : throws (gmap string jsval) :=
  match fuel with
  | O => Ok acc
  | S fuel' =>
      match l with
      | [] => Ok acc
      | [_] => Throw "invalid attribute length"
      | t :: len :: rest =>
          if (len <? 2) || (Z.of_nat (length l) <? len) then Throw "invalid attribute length"
          else
            let v := List.firstn (Z.to_nat (len - 2)) rest in
            let acc' :=
              match attr_name t with
              | Some (n, true) => <[n := JNum (be_value v)]> acc
              | Some (n, false) => <[n := JStr (string_of_bytes v)]> acc
              | None => acc
              end in
            decode_attributes fuel' (List.skipn (Z.to_nat (len - 2)) rest) acc'
      end
  end.

(** [radius.decode({packet, secret})]: parses the header and the attributes. *)
Definition radius_decode (packet : bytes) (secret : string) : throws radius_packet :=
  match packet with
  | c :: ident :: l1 :: l2 :: rest =>
      let len := l1 * 256 + l2 in
      match code_name c with
      | None => Throw "invalid packet code"
      | Some code =>
          if (len <? 20) || (Z.of_nat (length packet) <? len) then Throw "incomplete packet"
          else
            let body := List.firstn (Z.to_nat (len - 20)) (List.skipn 16 rest) in
            match decode_attributes (length body) body ∅ with
            | Throw e => Throw e
            | Ok attrs =>
                Ok {| rp_code := code; rp_identifier := ident;
                      rp_authenticator := List.firstn 16 rest; rp_attributes := attrs |}
            end
      end
  | _ => Throw "packet too short"
  end.

Fixpoint xor_bytes (a b : bytes) : bytes :=
  match a, b with
  | x :: a', y :: b' => Z.lxor x y :: xor_bytes a' b'
  | _, _ => []
  end.

(** RFC 2865 section 5.2 password hiding, over a password padded to 16-byte blocks. *)
Fixpoint hide_blocks (fuel : nat) (secret prev p : bytes) : bytes :=
  match fuel with
  | O => []
  | S fuel' =>
      match p with
      | [] => []
      | _ =>
          let c := xor_bytes (List.firstn 16 p) (md5 (secret ++ prev)) in
          c ++ hide_blocks fuel' secret c (List.skipn 16 p)
      end
  end.

Definition pad16 (p : bytes) : bytes :=
  let n := Z.of_nat (length p) in
  let padded := if n =? 0 then 16 else ((n + 15) / 16) * 16 in
  p ++ List.repeat 0 (Z.to_nat (padded - n)).

Definition decimal_digit (a : ascii) : option Z :=
  let n := Z.of_N (Ascii.N_of_ascii a) in
  if (48 <=? n) && (n <=? 57) then Some (n - 48) else None.

(** Dotted-quad IPv4 address, four decimal octets. *)
Fixpoint parse_ipv4_aux (l : list ascii) (cur : option Z) (acc : list Z) : option bytes :=
  match l with
  | [] => match cur with
          | Some v => if v <=? 255 then Some (List.rev (v :: acc)) else None
          | None => None
          end
  | a :: l' =>
      if Ascii.eqb a "." then
        match cur with
        | Some v => if v <=? 255 then parse_ipv4_aux l' None (v :: acc) else None
        | None => None
        end
      else
        match decimal_digit a with
        | Some d => parse_ipv4_aux l' (Some (match cur with Some v => v * 10 + d | None => d end)) acc
        | None => None
        end
  end.

Definition parse_ipv4 (s : string) : option bytes :=
  match parse_ipv4_aux (list_ascii_of_string s) None [] with
  | Some q => if (length q =? 4)%nat then Some q else None
  | None => None
  end.

Definition tlv (t : Z) (v : bytes) : throws bytes :=
  if 253 <? Z.of_nat (length v) then Throw "attribute value too long"
  else Ok (t :: (Z.of_nat (length v) + 2) :: v).

Definition encode_attribute (secret : string) (ra : bytes) (a : string * jsval) : throws bytes :=
  let '(name, value) := a in
  match value with
  | JStr s =>
      if String.eqb name "User-Name" then tlv 1 (bytes_of_string s)
      else if String.eqb name "User-Password" then
        let p := bytes_of_string s in
        if 128 <? Z.of_nat (length p) then Throw "password too long"
        else tlv 2 (hide_blocks (length p) (bytes_of_string secret) ra (pad16 p))
      else if String.eqb name "NAS-IP-Address" then
        match parse_ipv4 s with Some q => tlv 4 q | None => Throw "invalid IP address" end
      else Throw "invalid attribute value"
  | JNum n =>
      if String.eqb name "NAS-Port" then
        tlv 5 [Z.land (Z.shiftr n 24) 255; Z.land (Z.shiftr n 16) 255; Z.land (Z.shiftr n 8) 255; Z.land n 255]
      else Throw "invalid attribute value"
  | _ => Throw "invalid attribute value"
  end.

Fixpoint encode_attributes (secret : string) (ra : bytes) (l : list (string * jsval)) : throws bytes :=
  match l with
  | [] => Ok []
  | a :: l' =>
      match encode_attribute secret ra a, encode_attributes secret ra l' with
      | Ok x, Ok y => Ok (x ++ y)
      | Throw e, _ => Throw e
      | _, Throw e => Throw e
      end
  end.

(** [radius.encode({code, identifier, attributes, secret})], with the random
    request authenticator [ra]. *)
Definition radius_encode (code : string) (identifier : Z) (attributes : list (string * jsval))
    (secret : string) (ra : bytes) : throws bytes :=
  match code_number code with
  | None => Throw "invalid packet code"
  | Some c =>
      match encode_attributes secret ra attributes with
      | Throw e => Throw e
      | Ok attrs =>
          let len := 20 + Z.of_nat (length attrs) in
          Ok ([c; identifier; Z.shiftr len 8; Z.land len 255] ++ ra ++ attrs)
      end
  end.

(** The Response Authenticator of RFC 2865 section 3: MD5 over the response's
    code, identifier, length, the request authenticator, the attributes and the
    secret.  Not computed anywhere in [server.js]. *)
Definition response_authenticator (secret : string) (response : bytes) (request_auth : bytes) : bytes :=
  md5 (List.firstn 4 response ++ request_auth ++ List.skipn 20 response ++ bytes_of_string secret).

(* ================================================================== *)
(** ** Configuration constants (server.js, lines 26-33) *)

Fixpoint digits_prefix (l : list ascii) (acc : option Z) : option Z :=
  match l with
  | [] => acc
  | a :: l' =>
      match decimal_digit a with
      | Some d => digits_prefix l' (Some (match acc with Some v => v * 10 + d | None => d end))
      | None => acc
      end
  end.

Definition js_whitespace (a : ascii) : bool :=
  Ascii.eqb a " " || Ascii.eqb a (ascii_of_nat 9) || Ascii.eqb a (ascii_of_nat 10)
  || Ascii.eqb a (ascii_of_nat 13).

Fixpoint drop_whitespace (l : list ascii) : list ascii :=
  match l with
  | a :: l' => if js_whitespace a then drop_whitespace l' else l
  | [] => []
  end.

(** [parseInt(s)] in base 10; [None] is [NaN]. *)
Definition parseInt (s : string) : option Z :=
  match drop_whitespace (list_ascii_of_string s) with
  | a :: r =>
      if Ascii.eqb a "-" then Z.opp <$> digits_prefix r None
      else if Ascii.eqb a "+" then digits_prefix r None
      else digits_prefix (a :: r) None
  | [] => None
  end.

Record config := {
  RADIUS_HOST : string;
  RADIUS_PORT : option Z;
  RADIUS_SECRET : string;
  ALLOWED_FILTER_ID : string;
  ACCESS_DENIED_MESSAGE : string
}.

(** The module-level constants, evaluated once when server.js is loaded. *)
Definition load_config (env : environment) : config := {|
  RADIUS_HOST := env_or env "RADIUS_HOST" "192.168.1.108";
  RADIUS_PORT := parseInt (env_or env "RADIUS_PORT" "1812");
  RADIUS_SECRET := env_or env "RADIUS_SECRET" "testing123";
  ALLOWED_FILTER_ID := env_or env "ALLOWED_FILTER_ID" "StaffPolicy";
  ACCESS_DENIED_MESSAGE := env_or env "ACCESS_DENIED_MESSAGE" "You don't belong to this SSID"
|}.

(** [process.env.ACCESS_GRANTED_MESSAGE || ...], evaluated inside the request
    handler (server.js, line 160). *)
Definition access_granted_message (env : environment) : string :=
  env_or env "ACCESS_GRANTED_MESSAGE" "Access granted - Account verified".

(** [setTimeout(..., 10000)] *)
Definition RADIUS_TIMEOUT_MS : Z := 10000.

(* ================================================================== *)
(** ** authenticateWithRadius: one attempt (server.js, lines 205-336)

    The state of one call: the UDP socket, the closure variables [clientClosed]
    and [timeoutId], the event loop's view of the timer and of the pending send
    callback, and the Promise.  Counters record the socket created, the datagrams
    handed to [client.send] and the calls to [client.close]. *)

Record auth_result := {
  ar_success : bool;
  ar_filterId : jsval;          (* [filterId], absent: undefined *)
  ar_message : option string    (* [message] *)
}.

(** The Promise: resolved with a result, or rejected with an [Error] message. *)
Inductive settlement :=
| SResolved (r : auth_result)
| SRejected (err : string).

Record attempt := {
  at_req_identifier : Z;        (* [packet.identifier], the outstanding request *)
  at_req_authenticator : bytes; (* its request authenticator *)
  at_client_closed : bool;      (* [clientClosed] *)
  at_listeners : bool;          (* the 'error' and 'message' listeners are attached *)
  at_timeout_id : bool;         (* [timeoutId !== null] *)
  at_timer : option Z;          (* the timer is scheduled (with its delay) *)
  at_send_pending : bool;       (* the [client.send] callback has yet to run *)
  at_settled : option settlement;
  at_sockets : nat;
  at_sends : nat;
  at_closes : nat
}.

Definition mk_attempt id ra closed lis tid tmr sp stl so se cl : attempt :=
  {| at_req_identifier := id; at_req_authenticator := ra; at_client_closed := closed;
     at_listeners := lis; at_timeout_id := tid; at_timer := tmr; at_send_pending := sp;
     at_settled := stl; at_sockets := so; at_sends := se; at_closes := cl |}.

(** [resolve(v)] / [reject(e)]: only the first settlement of a Promise counts. *)
Definition settle (s : settlement) (st : attempt) : attempt :=
  match at_settled st with
  | Some _ => st
  | None =>
      mk_attempt (at_req_identifier st) (at_req_authenticator st) (at_client_closed st)
        (at_listeners st) (at_timeout_id st) (at_timer st) (at_send_pending st) (Some s)
        (at_sockets st) (at_sends st) (at_closes st)
  end.

Definition resolve (r : auth_result) : attempt -> attempt := settle (SResolved r).
Definition reject (e : string) : attempt -> attempt := settle (SRejected e).

(** [clearTimeoutSafely] *)
Definition clearTimeoutSafely (st : attempt) : attempt :=
  if at_timeout_id st then
    mk_attempt (at_req_identifier st) (at_req_authenticator st) (at_client_closed st)
      (at_listeners st) false None (at_send_pending st) (at_settled st)
      (at_sockets st) (at_sends st) (at_closes st)
  else st.

(** [closeSafely]: [removeAllListeners()] then [close()], once. *)
Definition closeSafely (st : attempt) : attempt :=
  if at_client_closed st then st
  else
    mk_attempt (at_req_identifier st) (at_req_authenticator st) true
      false (at_timeout_id st) (at_timer st) (at_send_pending st) (at_settled st)
      (at_sockets st) (at_sends st) (S (at_closes st)).

(** The timer fires: the event loop unschedules it ([timeoutId] keeps its value). *)
Definition timer_fired (st : attempt) : attempt :=
  mk_attempt (at_req_identifier st) (at_req_authenticator st) (at_client_closed st)
    (at_listeners st) (at_timeout_id st) None (at_send_pending st) (at_settled st)
    (at_sockets st) (at_sends st) (at_closes st).

(** The send callback runs (once). *)
Definition send_callback_done (st : attempt) : attempt :=
  mk_attempt (at_req_identifier st) (at_req_authenticator st) (at_client_closed st)
    (at_listeners st) (at_timeout_id st) (at_timer st) false (at_settled st)
    (at_sockets st) (at_sends st) (at_closes st).

(** Synchronous argument check of [client.send]: the port must be 1..65535
    ([parseInt] may have produced NaN); host resolution errors arrive in the callback. *)
Definition send_sync_error (port : option Z) : option string :=
  match port with
  | Some p => if (0 <? p) && (p <? 65536) then None else Some "Port should be > 0 and < 65536"
  | None => Some "Port should be > 0 and < 65536"
  end.

Inductive event :=
| EvMessage (message : bytes)       (* a datagram reaches the socket *)
| EvTimeout                         (* the timer expires *)
| EvSocketError (msg : string)      (* the socket emits 'error' *)
| EvSendCallback (err : option string). (* the send callback runs *)

(** The values passed to [resolve]. *)
Definition filter_id_of (response : radius_packet) : jsval :=
  (* [response.attributes] is always an object here, so only the lookup decides *)
  match rp_attributes response !! "Filter-Id" with
  | Some v => if truthy v then v else JNull
  | None => JNull
  end.

Definition accept_result (response : radius_packet) : auth_result :=
  {| ar_success := true; ar_filterId := filter_id_of response; ar_message := None |}.

Definition failed_result : auth_result :=
  {| ar_success := false; ar_filterId := JUndefined;
     ar_message := Some "Authentication failed. Please check your credentials." |}.

Definition timed_out_result : auth_result :=
  {| ar_success := false; ar_filterId := JUndefined;
     ar_message := Some "Authentication server timed out" |}.

Section Exchange.

(** [radius.encode] and [radius.decode] as [server.js] calls them. *)
Variable encode : string -> Z -> list (string * jsval) -> string -> bytes -> throws bytes.
Variable decode : bytes -> string -> throws radius_packet.
Variable cfg : config.

(** The Promise executor up to its return: socket, listeners, encode, send, timer.
    [identifier] is [Math.floor(Math.random() * 256)]; [ra] is the random request
    authenticator drawn by [encode]. *)
Definition authenticateWithRadius (username password : jsval) (identifier : Z) (ra : bytes) : attempt :=
  let st0 := mk_attempt identifier ra false true false None false None 1%nat 0%nat 0%nat in
  let attributes :=
    [("User-Name", username); ("User-Password", password);
     ("NAS-IP-Address", JStr "127.0.0.1"); ("NAS-Port", JNum 0)]%string in
  match encode "Access-Request" identifier attributes (RADIUS_SECRET cfg) ra with
  | Throw e => reject ("Failed to create authentication request: " ++ e) (closeSafely st0)
  | Ok _ =>
      match send_sync_error (RADIUS_PORT cfg) with
      | Some e => reject ("Failed to create authentication request: " ++ e) (closeSafely st0)
      | None =>
          (* [client.send(...)] accepted the datagram, then [timeoutId = setTimeout(...)] *)
          mk_attempt identifier ra false true true (Some RADIUS_TIMEOUT_MS) true None 1%nat 1%nat 0%nat
      end
  end.

(** [client.on('message', ...)] *)
Definition on_message (message : bytes) (st : attempt) : attempt :=
  if at_client_closed st then st
  else
    let st := clearTimeoutSafely st in
    match decode message (RADIUS_SECRET cfg) with
    | Ok response =>
        let st := closeSafely st in
        if String.eqb (rp_code response) "Access-Accept" then resolve (accept_result response) st
        else resolve failed_result st
    | Throw e =>
        reject ("Failed to process authentication response: " ++ e) (closeSafely st)
    end.

(** [client.on('error', ...)] *)
Definition on_error (msg : string) (st : attempt) : attempt :=
  if negb (at_client_closed st) then
    reject ("Network error: " ++ msg) (closeSafely (clearTimeoutSafely st))
  else st.

(** The [setTimeout] callback. *)
Definition on_timeout (st : attempt) : attempt :=
  resolve timed_out_result (closeSafely st).

(** The [client.send] callback. *)
Definition on_send (err : option string) (st : attempt) : attempt :=
  match err with
  | Some e => reject ("Failed to send authentication request: " ++ e) (closeSafely (clearTimeoutSafely st))
  | None => st
  end.

(** Event dispatch: socket events reach only attached listeners, a timer fires
    only while scheduled, the send callback runs once. *)
Definition step (ev : event) (st : attempt) : attempt :=
  match ev with
  | EvMessage m => if at_listeners st then on_message m st else st
  | EvSocketError e => if at_listeners st then on_error e st else st
  | EvTimeout => match at_timer st with Some _ => on_timeout (timer_fired st) | None => st end
  | EvSendCallback err => if at_send_pending st then on_send err (send_callback_done st) else st
  end.

Definition run (st : attempt) (evs : list event) : attempt :=
  List.fold_left (fun s e => step e s) evs st.

End Exchange.

(* ================================================================== *)
(** ** POST /auth/radius (server.js, lines 127-202) *)

Record response_json := {
  rj_success : bool;
  rj_message : string;
  rj_filterId : option jsval;
  rj_validation : option (string * string)   (* validation: {status, message} *)
}.

Record response := {
  res_status : Z;
  res_json : response_json
}.

(** The handler either answers at once or awaits [authenticateWithRadius] and
    continues with its settlement. *)
Inductive handler_step :=
| Respond (r : response)
| StartExchange (username password : jsval) (k : settlement -> response).

Definition body_field (body : gmap string jsval) (k : string) : jsval :=
  default JUndefined (body !! k).

Definition missing_credentials_response : response :=
  {| res_status := 400;
     res_json := {| rj_success := false; rj_message := "Username and password are required";
                    rj_filterId := None; rj_validation := None |} |}.

(** [result.message || 'Authentication failed'] *)
Definition failure_message (m : option string) : string :=
  match m with
  | Some s => if String.eqb s "" then "Authentication failed" else s
  | None => "Authentication failed"
  end.

(** After [await authenticateWithRadius(...)]; a rejection lands in [catch]. *)
Definition respond (cfg : config) (env : environment) (s : settlement) : response :=
  match s with
  | SRejected _ =>
      {| res_status := 500;
         res_json := {| rj_success := false; rj_message := "Server error during authentication";
                        rj_filterId := None; rj_validation := None |} |}
  | SResolved result =>
      if ar_success result then
        if js_eq_str (ar_filterId result) (ALLOWED_FILTER_ID cfg) then
          let ACCESS_GRANTED_MESSAGE := access_granted_message env in
          {| res_status := 200;
             res_json := {| rj_success := true; rj_message := "Authentication successful";
                            rj_filterId := Some (ar_filterId result);
                            rj_validation := Some ("success", ACCESS_GRANTED_MESSAGE) |} |}
        else
          {| res_status := 403;
             res_json := {| rj_success := false; rj_message := ACCESS_DENIED_MESSAGE cfg;
                            rj_filterId := Some (ar_filterId result);
                            rj_validation := Some ("error", "Access denied - " ++ ACCESS_DENIED_MESSAGE cfg) |} |}
      else
        {| res_status := 401;
           res_json := {| rj_success := false; rj_message := failure_message (ar_message result);
                          rj_filterId := None; rj_validation := None |} |}
  end%string.

Definition auth_radius_handler (cfg : config) (env : environment) (body : gmap string jsval) : handler_step :=
  let username := body_field body "username" in
  let password := body_field body "password" in
  if negb (truthy username) || negb (truthy password) then Respond missing_credentials_response
  else StartExchange username password (respond cfg env).

(** The whole request: the handler, the attempt it starts and the events the
    attempt sees; [None] while the Promise is pending. *)
Definition auth_radius_endpoint encode decode (cfg : config) (env : environment)
    (body : gmap string jsval) (identifier : Z) (ra : bytes) (evs : list event) : option response :=
  match auth_radius_handler cfg env body with
  | Respond r => Some r
  | StartExchange u p k =>
      k <$> at_settled (run decode cfg (authenticateWithRadius encode cfg u p identifier ra) evs)
  end.

(* ================================================================== *)
(** ** Concrete inputs *)

Definition default_config : config := load_config ∅.

Definition sample_ra : bytes := List.repeat 7 16.

Definition alice : gmap string jsval :=
  <["username" := JStr "alice"]> (<["password" := JStr "correct"]> ∅).

(** An Access-Accept with one Filter-Id attribute, authenticator bytes [auth]. *)
Definition accept_packet (identifier : Z) (auth : bytes) (filter : string) : bytes :=
  let v := bytes_of_string filter in
  let len := 20 + 2 + Z.of_nat (length v) in
  [2; identifier; Z.shiftr len 8; Z.land len 255] ++ auth ++ [11; 2 + Z.of_nat (length v)] ++ v.

(** The packet [radius.decode] makes of a datagram under the default secret. *)
Definition decoded (m : bytes) : radius_packet :=
  match radius_decode m "testing123" with
  | Ok r => r
  | Throw _ => {| rp_code := ""; rp_identifier := 0; rp_authenticator := []; rp_attributes := ∅ |}
  end.

(** A 300-character user name: longer than one RADIUS attribute can carry. *)
Definition long_name : string := string_of_list_ascii (List.repeat "a"%char 300).

Definition staff_result : settlement :=
  SResolved {| ar_success := true; ar_filterId := JStr "StaffPolicy"; ar_message := None |}.

(* ================================================================== *)
(** ** Invariants of an attempt *)

(** What holds of every state an attempt reaches: one socket, at most one send,
    the socket closed exactly when the Promise has settled (and closed once),
    listeners attached exactly while it is open, and the 10 s timer scheduled
    while the Promise is pending. *)
Definition attempt_inv (st : attempt) : Prop :=
  at_sockets st = 1%nat /\
  (at_sends st <= 1)%nat /\
  at_closes st = (if at_client_closed st then 1 else 0)%nat /\
  at_listeners st = negb (at_client_closed st) /\
  (at_settled st = None <-> at_client_closed st = false) /\
  (at_settled st = None -> at_timeout_id st = true /\ at_timer st = Some RADIUS_TIMEOUT_MS).

Ltac unfold_handlers :=
  unfold step, on_message, on_error, on_timeout, on_send, resolve, reject, settle,
    clearTimeoutSafely, closeSafely, timer_fired, send_callback_done, mk_attempt in *.

Ltac crush_attempt :=
  repeat (simpl in *; case_match); simpl in *; subst; try congruence; try lia;
  intuition (try congruence; try lia).

(** The settlement the 'message' handler produces for a datagram, computed from
    [radius.decode({packet: message, secret})] alone. *)
Definition message_settlement decode (cfg : config) (message : bytes) : settlement :=
  match decode message (RADIUS_SECRET cfg) with
  | Ok response =>
      if String.eqb (rp_code response) "Access-Accept" then SResolved (accept_result response)
      else SResolved failed_result
  | Throw e => SRejected ("Failed to process authentication response: " ++ e)
  end.

(* ================================================================== *)
(** ** Logging, startup check, identifier (server.js, lines 36-78, 127-129, 270) *)

Fixpoint digits_aux (fuel : nat) (n : Z) (acc : string) : string :=
  match fuel with
  | O => acc
  | S fuel' =>
      let acc' := String (ascii_of_nat (48 + Z.to_nat (n mod 10))) acc in
      if n <? 10 then acc' else digits_aux fuel' (n / 10) acc'
  end.

(** Decimal rendering of an integer, as template literals and JSON print it. *)
Definition string_of_Z (n : Z) : string :=
  if n <? 0 then ("-" ++ digits_aux (S (Z.to_nat (Z.log2 (- n)))) (- n) "")%string
  else digits_aux (S (Z.to_nat (Z.log2 n))) n "".

(** The request-logging middleware's 'finish' handler (lines 68-78): the line
    printed for a response, if any. *)
Definition request_log_line (method path : string) (statusCode duration : Z) : option string :=
  if (400 <=? statusCode) || (1000 <? duration) then
    Some (method ++ " " ++ path ++ " - " ++ string_of_Z statusCode ++ " (" ++ string_of_Z duration ++ "ms)")%string
  else None.

(** [if (!RADIUS_SECRET) { ... process.exit(1); }] (lines 48-51). *)
Definition startup_exits (cfg : config) : bool := String.eqb (RADIUS_SECRET cfg) "".

(** [Math.floor(Math.random() * 256)] (line 270), for [Math.random()] returning
    [k / 2^53] with [0 <= k < 2^53]; multiplying by 256 is exact on doubles. *)
Definition random_identifier (k : Z) : Z := (k * 256) / 2 ^ 53.

Definition dq : string := String (ascii_of_nat 34) EmptyString.

Definition hex_digit (n : nat) : ascii :=
  if (n <? 10)%nat then ascii_of_nat (48 + n) else ascii_of_nat (87 + n).

(** [JSON.stringify] of one character of a string. *)
Definition json_escape_char (a : ascii) : string :=
  let n := nat_of_ascii a in
  if (n =? 34)%nat then ("\" ++ dq)%string
  else if (n =? 92)%nat then "\\"
  else if (n =? 8)%nat then "\b"
  else if (n =? 12)%nat then "\f"
  else if (n =? 10)%nat then "\n"
  else if (n =? 13)%nat then "\r"
  else if (n =? 9)%nat then "\t"
  else if (n <? 32)%nat then ("\u00" ++ String (hex_digit (n / 16)) (String (hex_digit (n mod 16)) ""))%string
  else String a "".

Fixpoint json_escape (s : string) : string :=
  match s with
  | EmptyString => ""
  | String a s' => (json_escape_char a ++ json_escape s')%string
  end.

Definition json_string (s : string) : string := (dq ++ json_escape s ++ dq)%string.





(** The body [res.json] sends for [GET /api/health] (lines 103-119):
    [timestamp] is [new Date().toISOString()] and [hostname] is [os.hostname()];
    [JSON.stringify] writes the port [NaN] as [null]. *)
Definition health_json (cfg : config) (timestamp hostname : string) : string :=
  ("{" ++ json_string "status" ++ ":" ++ json_string "ok" ++ ","
   ++ json_string "version" ++ ":" ++ json_string "3.1.0" ++ ","
   ++ json_string "timestamp" ++ ":" ++ json_string timestamp ++ ","
   ++ json_string "radius" ++ ":{" ++ json_string "host" ++ ":" ++ json_string (RADIUS_HOST cfg) ++ ","
   ++ json_string "port" ++ ":" ++ match RADIUS_PORT cfg with Some n => string_of_Z n | None => "null" end ++ "},"
   ++ json_string "accessControl" ++ ":{" ++ json_string "allowedFilterId" ++ ":"
   ++ json_string (ALLOWED_FILTER_ID cfg) ++ "},"
   ++ json_string "container" ++ ":{" ++ json_string "hostname" ++ ":" ++ json_string hostname ++ "}}")%string.

(* ================================================================== *)
(** ** Concrete runs *)
Example md5_empty :
  md5 [] = [0xd4; 0x1d; 0x8c; 0xd9; 0x8f; 0x00; 0xb2; 0x04; 0xe9; 0x80; 0x09; 0x98; 0xec; 0xf8; 0x42; 0x7e].
Proof. vm_compute. reflexivity. Qed.

Example md5_abc :
  md5 (bytes_of_string "abc") = [0x90; 0x01; 0x50; 0x98; 0x3c; 0xd2; 0x4f; 0xb0; 0xd6; 0x96; 0x3f; 0x7d; 0x28; 0xe1; 0x7f; 0x72].
Proof. vm_compute. reflexivity. Qed.

Example default_port : RADIUS_PORT default_config = Some 1812.
Proof. reflexivity. Qed.

Example decode_accept :
  option_map rp_code (match radius_decode (accept_packet 9 (List.repeat 0 16) "StaffPolicy") "testing123" with
                      | Ok r => Some r | Throw _ => None end) = Some "Access-Accept"%string.
Proof. vm_compute. reflexivity. Qed.

Example scenario_staff :
  option_map res_status
    (auth_radius_endpoint radius_encode radius_decode default_config ∅ alice 9 sample_ra
       [EvSendCallback None; EvMessage (accept_packet 9 (List.repeat 0 16) "StaffPolicy")]) = Some 200.
Proof. vm_compute. reflexivity. Qed.

Example scenario_guest :
  option_map res_status
    (auth_radius_endpoint radius_encode radius_decode default_config ∅ alice 9 sample_ra
       [EvMessage (accept_packet 9 (List.repeat 0 16) "GuestPolicy")]) = Some 403.
Proof. vm_compute. reflexivity. Qed.

Example scenario_timeout :
  option_map res_status
    (auth_radius_endpoint radius_encode radius_decode default_config ∅ alice 9 sample_ra
       [EvSendCallback None; EvTimeout; EvMessage (accept_packet 9 (List.repeat 0 16) "StaffPolicy")]) = Some 401.
Proof. vm_compute. reflexivity. Qed.

Lemma attempt_eta (st : attempt) :
  st = mk_attempt (at_req_identifier st) (at_req_authenticator st) (at_client_closed st)
         (at_listeners st) (at_timeout_id st) (at_timer st) (at_send_pending st)
         (at_settled st) (at_sockets st) (at_sends st) (at_closes st).
Proof. destruct st; reflexivity. Qed.

Section Invariants.

Variable decode : bytes -> string -> throws radius_packet.
Variable cfg : config.

Lemma step_counts (ev : event) (st : attempt) :
  at_sockets (step decode cfg ev st) = at_sockets st /\
  at_sends (step decode cfg ev st) = at_sends st /\
  at_req_identifier (step decode cfg ev st) = at_req_identifier st /\
  at_req_authenticator (step decode cfg ev st) = at_req_authenticator st.
Proof. destruct st; destruct ev; unfold_handlers; crush_attempt. Qed.

Lemma run_counts (evs : list event) (st : attempt) :
  at_sockets (run decode cfg st evs) = at_sockets st /\
  at_sends (run decode cfg st evs) = at_sends st /\
  at_req_identifier (run decode cfg st evs) = at_req_identifier st /\
  at_req_authenticator (run decode cfg st evs) = at_req_authenticator st.
Proof.
  revert st; induction evs as [|ev evs IH]; intros st; simpl; [auto|].
  destruct (IH (step decode cfg ev st)) as (-> & -> & -> & ->).
  apply step_counts.
Qed.

Lemma step_settled (ev : event) (st : attempt) (s : settlement) :
  at_settled st = Some s -> at_settled (step decode cfg ev st) = Some s.
Proof. destruct st; destruct ev; unfold_handlers; crush_attempt. Qed.

Lemma run_settled (evs : list event) (st : attempt) (s : settlement) :
  at_settled st = Some s -> at_settled (run decode cfg st evs) = Some s.
Proof.
  revert st; induction evs as [|ev evs IH]; intros st H; simpl; [auto|].
  apply IH, step_settled, H.
Qed.

Lemma step_inv (ev : event) (st : attempt) :
  attempt_inv st -> attempt_inv (step decode cfg ev st).
Proof.
  unfold attempt_inv; destruct st; destruct ev; unfold_handlers; crush_attempt.
Qed.

Lemma run_inv (evs : list event) (st : attempt) :
  attempt_inv st -> attempt_inv (run decode cfg st evs).
Proof.
  revert st; induction evs as [|ev evs IH]; intros st H; simpl; [auto|].
  apply IH, step_inv, H.
Qed.

End Invariants.

Lemma start_inv encode (cfg : config) (u p : jsval) (identifier : Z) (ra : bytes) :
  attempt_inv (authenticateWithRadius encode cfg u p identifier ra).
Proof.
  unfold attempt_inv, authenticateWithRadius; unfold_handlers; crush_attempt.
Qed.


Lemma run_app (decode : bytes -> string -> throws radius_packet) (cfg : config)
    (st : attempt) (evs1 evs2 : list event) :
  run decode cfg st (evs1 ++ evs2) = run decode cfg (run decode cfg st evs1) evs2.
Proof. unfold run. apply fold_left_app. Qed.

Section OpenAttempt.

Variable decode : bytes -> string -> throws radius_packet.
Variable cfg : config.
Variable st : attempt.
Hypothesis Hinv : attempt_inv st.
Hypothesis Hopen : at_settled st = None.

Lemma open_message (m : bytes) :
  at_settled (step decode cfg (EvMessage m) st) = Some (message_settlement decode cfg m) /\
  at_client_closed (step decode cfg (EvMessage m) st) = true.
Proof.
  revert Hinv Hopen; unfold attempt_inv, message_settlement; destruct st; unfold_handlers;
    crush_attempt.
Qed.

Lemma open_timeout :
  at_timer st = Some RADIUS_TIMEOUT_MS /\
  at_settled (step decode cfg EvTimeout st) = Some (SResolved timed_out_result) /\
  at_client_closed (step decode cfg EvTimeout st) = true.
Proof. revert Hinv Hopen; unfold attempt_inv; destruct st; unfold_handlers; crush_attempt. Qed.

Lemma open_socket_error (e : string) :
  at_settled (step decode cfg (EvSocketError e) st) = Some (SRejected ("Network error: " ++ e)).
Proof. revert Hinv Hopen; unfold attempt_inv; destruct st; unfold_handlers; crush_attempt. Qed.

Lemma open_send_error (e : string) :
  at_send_pending st = true ->
  at_settled (step decode cfg (EvSendCallback (Some e)) st) =
    Some (SRejected ("Failed to send authentication request: " ++ e)).
Proof. revert Hinv Hopen; unfold attempt_inv; destruct st; unfold_handlers; crush_attempt. Qed.

End OpenAttempt.

Lemma start_sends encode (cfg : config) (u p : jsval) (identifier : Z) (ra : bytes) :
  at_sends (authenticateWithRadius encode cfg u p identifier ra) =
    match encode "Access-Request" identifier
            [("User-Name", u); ("User-Password", p);
             ("NAS-IP-Address", JStr "127.0.0.1"); ("NAS-Port", JNum 0)]%string
            (RADIUS_SECRET cfg) ra with
    | Ok _ => match send_sync_error (RADIUS_PORT cfg) with None => 1 | Some _ => 0 end
    | Throw _ => 0
    end%nat.
Proof. unfold authenticateWithRadius; unfold_handlers; crush_attempt. Qed.

Lemma endpoint_exchange encode decode (cfg : config) (env : environment)
    (body : gmap string jsval) (identifier : Z) (ra : bytes) (evs : list event) :
  truthy (body_field body "username") = true -> truthy (body_field body "password") = true ->
  auth_radius_endpoint encode decode cfg env body identifier ra evs =
    respond cfg env <$> at_settled (run decode cfg
      (authenticateWithRadius encode cfg (body_field body "username") (body_field body "password")
         identifier ra) evs).
Proof.
  intros Hu Hp. unfold auth_radius_endpoint, auth_radius_handler. rewrite Hu, Hp. reflexivity.
Qed.

Lemma env_or_nonempty (env : environment) (k d : string) :
  d <> ""%string -> env_or env k d <> ""%string.
Proof.
  unfold env_or; intros Hd. destruct (env !! k) as [s|]; [|exact Hd].
  destruct (String.eqb_spec s ""); congruence.
Qed.

(* ================================================================== *)
(** ** The claims *)

(** C1 (amended).  The 'message' handler never compares the datagram's
    identifier with the outstanding request's: while the attempt is open, a
    datagram that decodes to a packet with a different identifier still
    resolves the attempt, to success (with its Filter-Id) for Access-Accept and
    to an authentication failure for any other code. *)
Theorem message_identifier_not_checked encode decode (cfg : config) (u p : jsval)
    (identifier : Z) (ra : bytes) (evs : list event) (m : bytes) (r : radius_packet) :
  at_settled (run decode cfg (authenticateWithRadius encode cfg u p identifier ra) evs) = None ->
  decode m (RADIUS_SECRET cfg) = Ok r ->
  rp_identifier r <> at_req_identifier (run decode cfg (authenticateWithRadius encode cfg u p identifier ra) evs) ->
  at_settled (step decode cfg (EvMessage m)
                (run decode cfg (authenticateWithRadius encode cfg u p identifier ra) evs)) =
    Some (SResolved (if String.eqb (rp_code r) "Access-Accept" then accept_result r else failed_result)).
Proof.
  intros Hopen Hdec _.
  destruct (open_message decode cfg _ (run_inv decode cfg evs _ (start_inv encode cfg u p identifier ra))
              Hopen m) as [-> _].
  unfold message_settlement. rewrite Hdec. by destruct (String.eqb _ _).
Qed.

(** C1, as stated, fails: the outstanding request has identifier 9, an
    Access-Accept with identifier 5 arrives, and it is paired with the attempt
    and accepted (HTTP 200). *)
Lemma mismatched_identifier_accepted :
  at_req_identifier (authenticateWithRadius radius_encode default_config (JStr "alice") (JStr "correct") 9 sample_ra) = 9 /\
  rp_identifier <$> ok_value (radius_decode (accept_packet 5 (List.repeat 0 16) "StaffPolicy") "testing123") = Some 5 /\
  at_settled (step radius_decode default_config (EvMessage (accept_packet 5 (List.repeat 0 16) "StaffPolicy"))
     (authenticateWithRadius radius_encode default_config (JStr "alice") (JStr "correct") 9 sample_ra)) =
    Some (SResolved {| ar_success := true; ar_filterId := JStr "StaffPolicy"; ar_message := None |}) /\
  res_status <$> auth_radius_endpoint radius_encode radius_decode default_config ∅ alice 9 sample_ra
     [EvMessage (accept_packet 5 (List.repeat 0 16) "StaffPolicy")] = Some 200.
Proof. vm_compute. repeat split. Qed.

(** C2 (amended).  The 'message' handler decodes with the packet and the secret
    only; no response authenticator is recomputed from the request
    authenticator: while the attempt is open, a datagram whose authenticator
    differs from the RFC 2865 Response Authenticator still resolves the attempt
    by its code (success for Access-Accept, authentication failure otherwise). *)
Theorem response_authenticator_not_checked encode decode (cfg : config) (u p : jsval)
    (identifier : Z) (ra : bytes) (evs : list event) (m : bytes) (r : radius_packet) :
  at_settled (run decode cfg (authenticateWithRadius encode cfg u p identifier ra) evs) = None ->
  decode m (RADIUS_SECRET cfg) = Ok r ->
  rp_authenticator r <>
    response_authenticator (RADIUS_SECRET cfg) m
      (at_req_authenticator (run decode cfg (authenticateWithRadius encode cfg u p identifier ra) evs)) ->
  at_settled (step decode cfg (EvMessage m)
                (run decode cfg (authenticateWithRadius encode cfg u p identifier ra) evs)) =
    Some (SResolved (if String.eqb (rp_code r) "Access-Accept" then accept_result r else failed_result)).
Proof.
  intros Hopen Hdec _.
  destruct (open_message decode cfg _ (run_inv decode cfg evs _ (start_inv encode cfg u p identifier ra))
              Hopen m) as [-> _].
  unfold message_settlement. rewrite Hdec. by destruct (String.eqb _ _).
Qed.

(** C2, as stated, fails: an Access-Accept whose authenticator (sixteen zero
    bytes) is not the Response Authenticator for the request is accepted
    (HTTP 200) instead of failing as a decode error. *)
Lemma forged_authenticator_accepted :
  List.firstn 16 (List.skipn 4 (accept_packet 9 (List.repeat 0 16) "StaffPolicy")) <>
    response_authenticator "testing123" (accept_packet 9 (List.repeat 0 16) "StaffPolicy") sample_ra /\
  at_settled (step radius_decode default_config (EvMessage (accept_packet 9 (List.repeat 0 16) "StaffPolicy"))
     (authenticateWithRadius radius_encode default_config (JStr "alice") (JStr "correct") 9 sample_ra)) =
    Some (SResolved {| ar_success := true; ar_filterId := JStr "StaffPolicy"; ar_message := None |}) /\
  res_status <$> auth_radius_endpoint radius_encode radius_decode default_config ∅ alice 9 sample_ra
     [EvMessage (accept_packet 9 (List.repeat 0 16) "StaffPolicy")] = Some 200.
Proof. split; [vm_compute; discriminate | vm_compute; repeat split]. Qed.

(** C3.  An attempt settles at most once: after its Promise has settled, any
    further datagrams, timer expiry, socket errors or send callbacks leave the
    settlement, and hence the HTTP response, unchanged, and the socket stays
    closed (closed exactly once). *)
Theorem resolves_at_most_once encode decode (cfg : config) (env : environment) (u p : jsval)
    (identifier : Z) (ra : bytes) (evs1 evs2 : list event) (s : settlement) :
  at_settled (run decode cfg (authenticateWithRadius encode cfg u p identifier ra) evs1) = Some s ->
  at_settled (run decode cfg (authenticateWithRadius encode cfg u p identifier ra) (evs1 ++ evs2)) = Some s /\
  respond cfg env <$> at_settled (run decode cfg (authenticateWithRadius encode cfg u p identifier ra) (evs1 ++ evs2))
    = Some (respond cfg env s) /\
  at_client_closed (run decode cfg (authenticateWithRadius encode cfg u p identifier ra) (evs1 ++ evs2)) = true /\
  at_closes (run decode cfg (authenticateWithRadius encode cfg u p identifier ra) (evs1 ++ evs2)) = 1%nat.
Proof.
  intros Hs. rewrite run_app.
  assert (Hs' := run_settled decode cfg evs2 _ s Hs).
  destruct (run_inv decode cfg (evs1 ++ evs2) _ (start_inv encode cfg u p identifier ra))
    as (_ & _ & Hcl & _ & Hset & _).
  rewrite run_app in Hcl, Hset. rewrite Hs'.
  destruct (at_client_closed _) eqn:Hc; [by repeat split|].
  rewrite (proj2 Hset eq_refl) in Hs'. discriminate.
Qed.

Lemma allowed_filter_id_nonempty (env0 : environment) :
  ALLOWED_FILTER_ID (load_config env0) <> ""%string.
Proof. apply env_or_nonempty. discriminate. Qed.

(** C4.  For an Access-Accept whose Filter-Id is the configured
    [ALLOWED_FILTER_ID], the handler answers 200 with success, the Filter-Id and
    the grant message; for any other Filter-Id value it answers 403 without
    success and with the configured deny message. *)
Theorem filter_id_authorization decode (env0 env : environment) (m : bytes)
    (r : radius_packet) (v : jsval) :
  decode m (RADIUS_SECRET (load_config env0)) = Ok r ->
  rp_code r = "Access-Accept"%string ->
  rp_attributes r !! "Filter-Id" = Some v ->
  (v = JStr (ALLOWED_FILTER_ID (load_config env0)) ->
     respond (load_config env0) env (message_settlement decode (load_config env0) m) =
       {| res_status := 200;
          res_json := {| rj_success := true; rj_message := "Authentication successful";
                         rj_filterId := Some v;
                         rj_validation := Some ("success"%string, access_granted_message env) |} |}) /\
  (v <> JStr (ALLOWED_FILTER_ID (load_config env0)) ->
     res_status (respond (load_config env0) env (message_settlement decode (load_config env0) m)) = 403 /\
     rj_success (res_json (respond (load_config env0) env (message_settlement decode (load_config env0) m))) = false /\
     rj_message (res_json (respond (load_config env0) env (message_settlement decode (load_config env0) m))) =
       ACCESS_DENIED_MESSAGE (load_config env0)).
Proof.
  intros Hdec Hcode Hf.
  assert (Hne0 := allowed_filter_id_nonempty env0).
  remember (load_config env0) as cfg eqn:Hcfg; clear Hcfg.
  unfold message_settlement. rewrite Hdec, Hcode. simpl.
  unfold accept_result, filter_id_of, respond. simpl. rewrite Hf.
  split.
  - intros ->. simpl.
    destruct (String.eqb_spec (ALLOWED_FILTER_ID cfg) "") as [He|_]; [done|].
    simpl. by rewrite String.eqb_refl.
  - intros Hne.
    assert (Hneq : js_eq_str (if truthy v then v else JNull) (ALLOWED_FILTER_ID cfg) = false).
    { destruct (truthy v); [|reflexivity].
      destruct v; try reflexivity. simpl.
      apply String.eqb_neq. intros ->. by apply Hne. }
    rewrite Hneq. by repeat split.
Qed.

(** C5.  For an Access-Accept without a Filter-Id attribute, authentication
    counts as successful ([success: true] from [authenticateWithRadius]) but the
    handler denies access: HTTP 403, not an error. *)
Theorem missing_filter_id_denied decode (cfg : config) (env : environment) (m : bytes)
    (r : radius_packet) :
  decode m (RADIUS_SECRET cfg) = Ok r ->
  rp_code r = "Access-Accept"%string ->
  rp_attributes r !! "Filter-Id" = None ->
  message_settlement decode cfg m = SResolved (accept_result r) /\
  ar_success (accept_result r) = true /\
  res_status (respond cfg env (message_settlement decode cfg m)) = 403 /\
  rj_success (res_json (respond cfg env (message_settlement decode cfg m))) = false /\
  rj_message (res_json (respond cfg env (message_settlement decode cfg m))) = ACCESS_DENIED_MESSAGE cfg.
Proof.
  intros Hdec Hcode Hf.
  unfold message_settlement. rewrite Hdec, Hcode. simpl.
  unfold respond, accept_result, filter_id_of. simpl. rewrite Hf. simpl.
  by repeat split.
Qed.

Lemma endpoint_after encode decode (cfg : config) (env : environment) (body : gmap string jsval)
    (identifier : Z) (ra : bytes) (evs : list event) (ev : event) :
  truthy (body_field body "username") = true -> truthy (body_field body "password") = true ->
  auth_radius_endpoint encode decode cfg env body identifier ra (evs ++ [ev]) =
    respond cfg env <$> at_settled (step decode cfg ev (run decode cfg
      (authenticateWithRadius encode cfg (body_field body "username") (body_field body "password")
         identifier ra) evs)).
Proof.
  intros Hu Hp. rewrite (endpoint_exchange _ _ _ _ _ _ _ _ Hu Hp), run_app. reflexivity.
Qed.

(** C6 (amended).  The HTTP status of [POST /auth/radius]: 400 for missing
    credentials; 401 when the server answers with a code other than
    Access-Accept and when the 10 s timer fires; 500 when the Promise is
    rejected, i.e. when [radius.encode] throws, when the response cannot be
    decoded, on a socket error and on a send error; 200 or 403 for an
    Access-Accept, as its Filter-Id matches [ALLOWED_FILTER_ID] or not. *)
Theorem status_by_outcome encode decode (cfg : config) (env : environment)
    (body : gmap string jsval) (identifier : Z) (ra : bytes) (evs : list event) :
  (truthy (body_field body "username") = false \/ truthy (body_field body "password") = false ->
     res_status <$> auth_radius_endpoint encode decode cfg env body identifier ra evs = Some 400) /\
  (truthy (body_field body "username") = true -> truthy (body_field body "password") = true ->
   forall e, encode "Access-Request" identifier
       [("User-Name", body_field body "username"); ("User-Password", body_field body "password");
        ("NAS-IP-Address", JStr "127.0.0.1"); ("NAS-Port", JNum 0)]%string (RADIUS_SECRET cfg) ra = Throw e ->
     res_status <$> auth_radius_endpoint encode decode cfg env body identifier ra evs = Some 500) /\
  (truthy (body_field body "username") = true -> truthy (body_field body "password") = true ->
   at_settled (run decode cfg (authenticateWithRadius encode cfg (body_field body "username")
                 (body_field body "password") identifier ra) evs) = None ->
   (forall m r, decode m (RADIUS_SECRET cfg) = Ok r -> rp_code r <> "Access-Accept"%string ->
      res_status <$> auth_radius_endpoint encode decode cfg env body identifier ra (evs ++ [EvMessage m]) = Some 401) /\
   res_status <$> auth_radius_endpoint encode decode cfg env body identifier ra (evs ++ [EvTimeout]) = Some 401 /\
   (forall m e, decode m (RADIUS_SECRET cfg) = Throw e ->
      res_status <$> auth_radius_endpoint encode decode cfg env body identifier ra (evs ++ [EvMessage m]) = Some 500) /\
   (forall e, res_status <$> auth_radius_endpoint encode decode cfg env body identifier ra
                (evs ++ [EvSocketError e]) = Some 500) /\
   (forall e, at_send_pending (run decode cfg (authenticateWithRadius encode cfg (body_field body "username")
                 (body_field body "password") identifier ra) evs) = true ->
      res_status <$> auth_radius_endpoint encode decode cfg env body identifier ra
        (evs ++ [EvSendCallback (Some e)]) = Some 500) /\
   (forall m r, decode m (RADIUS_SECRET cfg) = Ok r -> rp_code r = "Access-Accept"%string ->
      res_status <$> auth_radius_endpoint encode decode cfg env body identifier ra (evs ++ [EvMessage m]) =
        Some (if js_eq_str (filter_id_of r) (ALLOWED_FILTER_ID cfg) then 200 else 403))).
Proof.
  split; [|split].
  - intros H. unfold auth_radius_endpoint, auth_radius_handler.
    destruct H as [-> | ->]; [reflexivity|]. by rewrite orb_true_r.
  - intros Hu Hp e He. rewrite (endpoint_exchange _ _ _ _ _ _ _ _ Hu Hp).
    rewrite (run_settled decode cfg evs _ (SRejected ("Failed to create authentication request: " ++ e))).
    + reflexivity.
    + unfold authenticateWithRadius. rewrite He. reflexivity.
  - intros Hu Hp Hopen.
    assert (Hinv := run_inv decode cfg evs _ (start_inv encode cfg (body_field body "username")
                      (body_field body "password") identifier ra)).
    repeat split.
    + intros m r Hd Hc. rewrite (endpoint_after _ _ _ _ _ _ _ _ _ Hu Hp).
      rewrite (proj1 (open_message decode cfg _ Hinv Hopen m)).
      unfold message_settlement. rewrite Hd.
      destruct (String.eqb_spec (rp_code r) "Access-Accept"); [done|reflexivity].
    + rewrite (endpoint_after _ _ _ _ _ _ _ _ _ Hu Hp).
      by rewrite (proj1 (proj2 (open_timeout decode cfg _ Hinv Hopen))).
    + intros m e Hd. rewrite (endpoint_after _ _ _ _ _ _ _ _ _ Hu Hp).
      rewrite (proj1 (open_message decode cfg _ Hinv Hopen m)).
      unfold message_settlement. by rewrite Hd.
    + intros e. rewrite (endpoint_after _ _ _ _ _ _ _ _ _ Hu Hp).
      by rewrite (open_socket_error decode cfg _ Hinv Hopen e).
    + intros e Hs. rewrite (endpoint_after _ _ _ _ _ _ _ _ _ Hu Hp).
      by rewrite (open_send_error decode cfg _ Hinv Hopen e Hs).
    + intros m r Hd Hc. rewrite (endpoint_after _ _ _ _ _ _ _ _ _ Hu Hp).
      rewrite (proj1 (open_message decode cfg _ Hinv Hopen m)).
      unfold message_settlement. rewrite Hd, Hc. simpl.
      unfold respond, accept_result. simpl.
      by destruct (js_eq_str (filter_id_of r) (ALLOWED_FILTER_ID cfg)).
Qed.

(** C6, as stated, fails: a datagram the decoder rejects ("packet too short")
    and a socket error both give HTTP 500, not 401. *)
Lemma decode_error_gives_500 :
  radius_decode [1; 2; 3] "testing123" = Throw "packet too short" /\
  res_status <$> auth_radius_endpoint radius_encode radius_decode default_config ∅ alice 9 sample_ra
    [EvMessage [1; 2; 3]] = Some 500 /\
  res_status <$> auth_radius_endpoint radius_encode radius_decode default_config ∅ alice 9 sample_ra
    [EvSocketError "ECONNREFUSED"] = Some 500.
Proof. vm_compute. repeat split. Qed.

(** C7 (amended).  While an attempt is pending its 10 s timer is scheduled;
    when it fires the attempt resolves to "Authentication server timed out",
    the socket is closed and the handler answers 401.  (An attempt that
    receives a datagram, a socket error or a send error first resolves by
    that path instead.) *)
Theorem pending_attempt_times_out encode decode (cfg : config) (env : environment)
    (body : gmap string jsval) (identifier : Z) (ra : bytes) (evs : list event) :
  truthy (body_field body "username") = true -> truthy (body_field body "password") = true ->
  at_settled (run decode cfg (authenticateWithRadius encode cfg (body_field body "username")
                (body_field body "password") identifier ra) evs) = None ->
  at_timer (run decode cfg (authenticateWithRadius encode cfg (body_field body "username")
              (body_field body "password") identifier ra) evs) = Some RADIUS_TIMEOUT_MS /\
  at_settled (step decode cfg EvTimeout (run decode cfg (authenticateWithRadius encode cfg
      (body_field body "username") (body_field body "password") identifier ra) evs)) =
    Some (SResolved timed_out_result) /\
  at_client_closed (step decode cfg EvTimeout (run decode cfg (authenticateWithRadius encode cfg
      (body_field body "username") (body_field body "password") identifier ra) evs)) = true /\
  auth_radius_endpoint encode decode cfg env body identifier ra (evs ++ [EvTimeout]) =
    Some {| res_status := 401;
            res_json := {| rj_success := false; rj_message := "Authentication server timed out";
                           rj_filterId := None; rj_validation := None |} |}.
Proof.
  intros Hu Hp Hopen.
  assert (Hinv := run_inv decode cfg evs _ (start_inv encode cfg (body_field body "username")
                    (body_field body "password") identifier ra)).
  destruct (open_timeout decode cfg _ Hinv Hopen) as (Ht & Hs & Hc).
  repeat split; try assumption.
  rewrite (endpoint_after _ _ _ _ _ _ _ _ _ Hu Hp), Hs. reflexivity.
Qed.

(** C7, as stated, fails: the only datagram is malformed, so no valid response
    arrives, yet the attempt does not time out: the datagram cleared the timer
    and the attempt failed as a decode error (HTTP 500). *)
Lemma malformed_reply_not_timed_out :
  radius_decode [1; 2; 3] "testing123" = Throw "packet too short" /\
  at_settled (run radius_decode default_config
     (authenticateWithRadius radius_encode default_config (JStr "alice") (JStr "correct") 9 sample_ra)
     [EvMessage [1; 2; 3]; EvTimeout]) =
    Some (SRejected "Failed to process authentication response: packet too short") /\
  res_status <$> auth_radius_endpoint radius_encode radius_decode default_config ∅ alice 9 sample_ra
    [EvMessage [1; 2; 3]; EvTimeout] = Some 500.
Proof. vm_compute. repeat split. Qed.

(** C8 (amended).  Every attempt creates exactly one socket and hands at most
    one datagram to it: one when [radius.encode] succeeds and [client.send]
    accepts its arguments, none otherwise.  The socket is closed at most once,
    and once the attempt has settled, by whatever path, it is closed. *)
Theorem one_socket_per_attempt encode decode (cfg : config) (u p : jsval) (identifier : Z)
    (ra : bytes) (evs : list event) :
  at_sockets (run decode cfg (authenticateWithRadius encode cfg u p identifier ra) evs) = 1%nat /\
  at_sends (run decode cfg (authenticateWithRadius encode cfg u p identifier ra) evs) =
    match encode "Access-Request" identifier
            [("User-Name", u); ("User-Password", p);
             ("NAS-IP-Address", JStr "127.0.0.1"); ("NAS-Port", JNum 0)]%string
            (RADIUS_SECRET cfg) ra with
    | Ok _ => match send_sync_error (RADIUS_PORT cfg) with None => 1 | Some _ => 0 end
    | Throw _ => 0
    end%nat /\
  (at_closes (run decode cfg (authenticateWithRadius encode cfg u p identifier ra) evs) <= 1)%nat /\
  (at_settled (run decode cfg (authenticateWithRadius encode cfg u p identifier ra) evs) <> None ->
   at_client_closed (run decode cfg (authenticateWithRadius encode cfg u p identifier ra) evs) = true /\
   at_closes (run decode cfg (authenticateWithRadius encode cfg u p identifier ra) evs) = 1%nat).
Proof.
  destruct (run_counts decode cfg evs (authenticateWithRadius encode cfg u p identifier ra))
    as (-> & -> & _ & _).
  rewrite start_sends.
  destruct (run_inv decode cfg evs _ (start_inv encode cfg u p identifier ra))
    as (Hso & _ & Hcl & _ & Hset & _).
  revert Hso. destruct (start_inv encode cfg u p identifier ra) as (-> & _).
  intros _. split; [reflexivity|]. split; [reflexivity|].
  rewrite Hcl. destruct (at_client_closed _) eqn:Hc.
  - split; [lia|]. done.
  - split; [lia|]. intros Hs. exfalso. by apply Hs, Hset.
Qed.

(** C8, as stated, fails: when [radius.encode] throws (a 300-byte user name),
    the attempt ends with the socket closed and no datagram sent. *)
Lemma encode_failure_sends_nothing :
  ok_value (radius_encode "Access-Request" 9
     [("User-Name", JStr long_name); ("User-Password", JStr "correct");
      ("NAS-IP-Address", JStr "127.0.0.1"); ("NAS-Port", JNum 0)]%string "testing123" sample_ra) = None /\
  at_sends (authenticateWithRadius radius_encode default_config (JStr long_name) (JStr "correct") 9 sample_ra) = 0%nat /\
  at_client_closed (authenticateWithRadius radius_encode default_config (JStr long_name) (JStr "correct") 9 sample_ra) = true /\
  at_settled (authenticateWithRadius radius_encode default_config (JStr long_name) (JStr "correct") 9 sample_ra) =
    Some (SRejected "Failed to create authentication request: attribute value too long").
Proof. vm_compute. repeat split. Qed.

(** C9 (code bug).  [ACCESS_GRANTED_MESSAGE] is read from [process.env] while a
    request is handled: two environments that yield the same startup
    configuration give different responses to the same authorized result. *)
Theorem granted_message_read_at_request_time :
  load_config {[ "ACCESS_GRANTED_MESSAGE" := "Access granted - Staff account verified" ]} =
    load_config {[ "ACCESS_GRANTED_MESSAGE" := "Welcome" ]} /\
  rj_validation (res_json (respond
     (load_config {[ "ACCESS_GRANTED_MESSAGE" := "Access granted - Staff account verified" ]})
     {[ "ACCESS_GRANTED_MESSAGE" := "Access granted - Staff account verified" ]} staff_result)) =
    Some ("success", "Access granted - Staff account verified") /\
  rj_validation (res_json (respond
     (load_config {[ "ACCESS_GRANTED_MESSAGE" := "Access granted - Staff account verified" ]})
     {[ "ACCESS_GRANTED_MESSAGE" := "Welcome" ]} staff_result)) =
    Some ("success", "Welcome").
Proof. vm_compute. repeat split. Qed.

(** C10.  If [username] or [password] is falsy (absent, null, empty, false or
    0), the handler answers 400 with "Username and password are required" and
    never calls [authenticateWithRadius]: whatever the exchange would do, the
    response is the same. *)
Theorem missing_credentials_rejected encode decode (cfg : config) (env : environment)
    (body : gmap string jsval) (identifier : Z) (ra : bytes) (evs : list event) :
  truthy (body_field body "username") = false \/ truthy (body_field body "password") = false ->
  auth_radius_handler cfg env body = Respond missing_credentials_response /\
  auth_radius_endpoint encode decode cfg env body identifier ra evs = Some missing_credentials_response /\
  res_status missing_credentials_response = 400 /\
  rj_success (res_json missing_credentials_response) = false /\
  rj_message (res_json missing_credentials_response) = "Username and password are required"%string.
Proof.
  intros H.
  assert (Hh : auth_radius_handler cfg env body = Respond missing_credentials_response).
  { unfold auth_radius_handler. destruct H as [-> | ->]; [reflexivity|]. by rewrite orb_true_r. }
  split; [exact Hh|]. split; [|by repeat split].
  unfold auth_radius_endpoint. by rewrite Hh.
Qed.

(* ================================================================== *)
(** ** Witnesses: the claims' hypotheses hold at concrete inputs *)

Ltac concrete := vm_compute; first [reflexivity | discriminate].

Lemma message_identifier_not_checked_witness :
  at_settled (run radius_decode default_config
    (authenticateWithRadius radius_encode default_config (JStr "alice") (JStr "correct") 9 sample_ra) []) = None /\
  radius_decode (accept_packet 5 (List.repeat 0 16) "StaffPolicy") (RADIUS_SECRET default_config) =
    Ok (decoded (accept_packet 5 (List.repeat 0 16) "StaffPolicy")) /\
  rp_identifier (decoded (accept_packet 5 (List.repeat 0 16) "StaffPolicy")) <>
    at_req_identifier (run radius_decode default_config
      (authenticateWithRadius radius_encode default_config (JStr "alice") (JStr "correct") 9 sample_ra) []) /\
  at_settled (step radius_decode default_config (EvMessage (accept_packet 5 (List.repeat 0 16) "StaffPolicy"))
    (run radius_decode default_config
      (authenticateWithRadius radius_encode default_config (JStr "alice") (JStr "correct") 9 sample_ra) [])) =
    Some (SResolved (if String.eqb (rp_code (decoded (accept_packet 5 (List.repeat 0 16) "StaffPolicy"))) "Access-Accept"
                     then accept_result (decoded (accept_packet 5 (List.repeat 0 16) "StaffPolicy"))
                     else failed_result)).
Proof.
  split; [concrete|]. split; [concrete|]. split; [concrete|].
  apply message_identifier_not_checked; concrete.
Defined.

Lemma response_authenticator_not_checked_witness :
  at_settled (run radius_decode default_config
    (authenticateWithRadius radius_encode default_config (JStr "alice") (JStr "correct") 9 sample_ra) []) = None /\
  radius_decode (accept_packet 9 (List.repeat 0 16) "StaffPolicy") (RADIUS_SECRET default_config) =
    Ok (decoded (accept_packet 9 (List.repeat 0 16) "StaffPolicy")) /\
  rp_authenticator (decoded (accept_packet 9 (List.repeat 0 16) "StaffPolicy")) <>
    response_authenticator (RADIUS_SECRET default_config) (accept_packet 9 (List.repeat 0 16) "StaffPolicy")
      (at_req_authenticator (run radius_decode default_config
        (authenticateWithRadius radius_encode default_config (JStr "alice") (JStr "correct") 9 sample_ra) [])) /\
  at_settled (step radius_decode default_config (EvMessage (accept_packet 9 (List.repeat 0 16) "StaffPolicy"))
    (run radius_decode default_config
      (authenticateWithRadius radius_encode default_config (JStr "alice") (JStr "correct") 9 sample_ra) [])) =
    Some (SResolved (if String.eqb (rp_code (decoded (accept_packet 9 (List.repeat 0 16) "StaffPolicy"))) "Access-Accept"
                     then accept_result (decoded (accept_packet 9 (List.repeat 0 16) "StaffPolicy"))
                     else failed_result)).
Proof.
  split; [concrete|]. split; [concrete|]. split; [concrete|].
  apply response_authenticator_not_checked; concrete.
Defined.

Lemma resolves_at_most_once_witness :
  at_settled (run radius_decode default_config
    (authenticateWithRadius radius_encode default_config (JStr "alice") (JStr "correct") 9 sample_ra)
    [EvMessage (accept_packet 9 (List.repeat 0 16) "StaffPolicy")]) = Some staff_result /\
  at_settled (run radius_decode default_config
    (authenticateWithRadius radius_encode default_config (JStr "alice") (JStr "correct") 9 sample_ra)
    ([EvMessage (accept_packet 9 (List.repeat 0 16) "StaffPolicy")] ++
     [EvTimeout; EvMessage (accept_packet 9 (List.repeat 0 16) "GuestPolicy"); EvSendCallback (Some "EHOSTUNREACH")]))
    = Some staff_result /\
  respond default_config ∅ <$> at_settled (run radius_decode default_config
    (authenticateWithRadius radius_encode default_config (JStr "alice") (JStr "correct") 9 sample_ra)
    ([EvMessage (accept_packet 9 (List.repeat 0 16) "StaffPolicy")] ++
     [EvTimeout; EvMessage (accept_packet 9 (List.repeat 0 16) "GuestPolicy"); EvSendCallback (Some "EHOSTUNREACH")]))
    = Some (respond default_config ∅ staff_result) /\
  at_client_closed (run radius_decode default_config
    (authenticateWithRadius radius_encode default_config (JStr "alice") (JStr "correct") 9 sample_ra)
    ([EvMessage (accept_packet 9 (List.repeat 0 16) "StaffPolicy")] ++
     [EvTimeout; EvMessage (accept_packet 9 (List.repeat 0 16) "GuestPolicy"); EvSendCallback (Some "EHOSTUNREACH")]))
    = true /\
  at_closes (run radius_decode default_config
    (authenticateWithRadius radius_encode default_config (JStr "alice") (JStr "correct") 9 sample_ra)
    ([EvMessage (accept_packet 9 (List.repeat 0 16) "StaffPolicy")] ++
     [EvTimeout; EvMessage (accept_packet 9 (List.repeat 0 16) "GuestPolicy"); EvSendCallback (Some "EHOSTUNREACH")]))
    = 1%nat.
Proof.
  split; [concrete|].
  apply (resolves_at_most_once radius_encode radius_decode default_config ∅ (JStr "alice") (JStr "correct") 9 sample_ra).
  concrete.
Defined.

Lemma filter_id_authorization_witness :
  radius_decode (accept_packet 9 (List.repeat 0 16) "StaffPolicy") (RADIUS_SECRET (load_config ∅)) =
    Ok (decoded (accept_packet 9 (List.repeat 0 16) "StaffPolicy")) /\
  rp_code (decoded (accept_packet 9 (List.repeat 0 16) "StaffPolicy")) = "Access-Accept"%string /\
  rp_attributes (decoded (accept_packet 9 (List.repeat 0 16) "StaffPolicy")) !! "Filter-Id" = Some (JStr "StaffPolicy") /\
  respond (load_config ∅) ∅ (message_settlement radius_decode (load_config ∅) (accept_packet 9 (List.repeat 0 16) "StaffPolicy")) =
    {| res_status := 200;
       res_json := {| rj_success := true; rj_message := "Authentication successful";
                      rj_filterId := Some (JStr "StaffPolicy");
                      rj_validation := Some ("success"%string, access_granted_message ∅) |} |}.
Proof.
  split; [concrete|]. split; [concrete|]. split; [concrete|].
  apply (filter_id_authorization radius_decode ∅ ∅ (accept_packet 9 (List.repeat 0 16) "StaffPolicy")
           (decoded (accept_packet 9 (List.repeat 0 16) "StaffPolicy")) (JStr "StaffPolicy")); concrete.
Defined.

Lemma missing_filter_id_denied_witness :
  radius_decode ([2; 9; 0; 20] ++ List.repeat 0 16) (RADIUS_SECRET default_config) =
    Ok (decoded ([2; 9; 0; 20] ++ List.repeat 0 16)) /\
  rp_code (decoded ([2; 9; 0; 20] ++ List.repeat 0 16)) = "Access-Accept"%string /\
  rp_attributes (decoded ([2; 9; 0; 20] ++ List.repeat 0 16)) !! "Filter-Id" = None /\
  res_status (respond default_config ∅ (message_settlement radius_decode default_config ([2; 9; 0; 20] ++ List.repeat 0 16))) = 403.
Proof.
  split; [concrete|]. split; [concrete|]. split; [concrete|].
  apply (missing_filter_id_denied radius_decode default_config ∅ ([2; 9; 0; 20] ++ List.repeat 0 16)
           (decoded ([2; 9; 0; 20] ++ List.repeat 0 16))); concrete.
Defined.

Lemma pending_attempt_times_out_witness :
  truthy (body_field alice "username") = true /\ truthy (body_field alice "password") = true /\
  at_settled (run radius_decode default_config (authenticateWithRadius radius_encode default_config
    (body_field alice "username") (body_field alice "password") 9 sample_ra) [EvSendCallback None]) = None /\
  auth_radius_endpoint radius_encode radius_decode default_config ∅ alice 9 sample_ra ([EvSendCallback None] ++ [EvTimeout]) =
    Some {| res_status := 401;
            res_json := {| rj_success := false; rj_message := "Authentication server timed out";
                           rj_filterId := None; rj_validation := None |} |}.
Proof.
  split; [concrete|]. split; [concrete|]. split; [concrete|].
  apply (pending_attempt_times_out radius_encode radius_decode default_config ∅ alice 9 sample_ra [EvSendCallback None]);
    concrete.
Defined.

Lemma missing_credentials_rejected_witness :
  (truthy (body_field (<["username" := JStr ""]> (<["password" := JStr "pw"]> ∅)) "username") = false \/
   truthy (body_field (<["username" := JStr ""]> (<["password" := JStr "pw"]> ∅)) "password") = false) /\
  auth_radius_handler default_config ∅ (<["username" := JStr ""]> (<["password" := JStr "pw"]> ∅)) =
    Respond missing_credentials_response.
Proof.
  split; [left; concrete|].
  apply (missing_credentials_rejected radius_encode radius_decode default_config ∅
           (<["username" := JStr ""]> (<["password" := JStr "pw"]> ∅)) 9 sample_ra []).
  left; concrete.
Defined.

(* ================================================================== *)
(** ** Further properties of server.js *)

Lemma endpoint_status encode decode (cfg : config) (env : environment) (body : gmap string jsval)
    (identifier : Z) (ra : bytes) (evs : list event) (r : response) :
  auth_radius_endpoint encode decode cfg env body identifier ra evs = Some r ->
  res_status r = 200 \/ res_status r = 400 \/ res_status r = 401 \/ res_status r = 403 \/ res_status r = 500.
Proof.
  unfold auth_radius_endpoint, auth_radius_handler.
  destruct (negb _ || negb _).
  - intros [= <-]. simpl. tauto.
  - intros Hr. apply fmap_Some in Hr as (s & _ & ->).
    unfold respond. repeat case_match; simpl; tauto.
Qed.

(** The request-logging middleware prints a line for every [/auth/radius]
    response except a 200 answered within one second: missing credentials,
    authentication failures, denials and server errors are always logged. *)
Theorem auth_responses_logged encode decode (cfg : config) (env : environment)
    (body : gmap string jsval) (identifier : Z) (ra : bytes) (evs : list event)
    (r : response) (duration : Z) :
  auth_radius_endpoint encode decode cfg env body identifier ra evs = Some r ->
  (is_Some (request_log_line "POST" "/auth/radius" (res_status r) duration) <->
   res_status r <> 200 \/ 1000 < duration).
Proof.
  intros Hr. apply endpoint_status in Hr.
  unfold request_log_line.
  destruct ((400 <=? res_status r) || (1000 <? duration)) eqn:Hb.
  - split; [intros _|done].
    apply orb_true_iff in Hb as [Hb|Hb]; [left; apply Z.leb_le in Hb; lia|right; lia].
  - split; [intros [? H]; discriminate|].
    apply orb_false_iff in Hb as [Hb1 Hb2]. apply Z.leb_gt in Hb1. apply Z.ltb_ge in Hb2.
    intros [H|H]; lia.
Qed.

(** The startup check [if (!RADIUS_SECRET) process.exit(1)] never fires: the
    secret falls back to its default whenever the variable is unset or empty. *)
Theorem startup_secret_check_never_exits (env : environment) :
  startup_exits (load_config env) = false.
Proof.
  unfold startup_exits. destruct (String.eqb_spec (RADIUS_SECRET (load_config env)) ""); [|done].
  exfalso. revert e. apply env_or_nonempty. discriminate.
Qed.

Lemma env_or_insert_empty (env : environment) (k k' d : string) :
  env_or (<[k := ""%string]> env) k' d = env_or (delete k env) k' d.
Proof.
  unfold env_or. destruct (decide (k = k')) as [<-|Hne].
  - by rewrite lookup_insert_eq, lookup_delete_eq.
  - by rewrite lookup_insert_ne, lookup_delete_ne.
Qed.

(** Because every setting is read as [process.env.X || default], an
    environment variable set to the empty string behaves exactly as an unset
    one, for the startup configuration and for the grant message. *)
Theorem empty_env_var_is_unset (env : environment) (k : string) :
  load_config (<[k := ""%string]> env) = load_config (delete k env) /\
  access_granted_message (<[k := ""%string]> env) = access_granted_message (delete k env).
Proof.
  unfold load_config, access_granted_message. rewrite !env_or_insert_empty. done.
Qed.

Lemma step_timer_none decode (cfg : config) (ev : event) (st : attempt) :
  at_timer st = None -> at_timer (step decode cfg ev st) = None.
Proof. destruct st; destruct ev; unfold_handlers; crush_attempt. Qed.

Lemma run_timer_none decode (cfg : config) (evs : list event) (st : attempt) :
  at_timer st = None -> at_timer (run decode cfg st evs) = None.
Proof.
  revert st; induction evs as [|ev evs IH]; intros st H; simpl; [done|].
  apply IH, step_timer_none, H.
Qed.

(** When [RADIUS_PORT] is not a usable port (NaN from [parseInt], or outside
    1..65535), [client.send] throws synchronously: every attempt with
    credentials ends at once with HTTP 500 and the generic error body, sends
    nothing, schedules no timer and closes its socket, whatever happens next. *)
Theorem bad_port_fails_every_attempt encode decode (cfg : config) (env : environment)
    (body : gmap string jsval) (identifier : Z) (ra : bytes) (evs : list event) (e : string) :
  send_sync_error (RADIUS_PORT cfg) = Some e ->
  truthy (body_field body "username") = true -> truthy (body_field body "password") = true ->
  at_sends (run decode cfg (authenticateWithRadius encode cfg (body_field body "username")
              (body_field body "password") identifier ra) evs) = 0%nat /\
  at_timer (run decode cfg (authenticateWithRadius encode cfg (body_field body "username")
              (body_field body "password") identifier ra) evs) = None /\
  at_client_closed (run decode cfg (authenticateWithRadius encode cfg (body_field body "username")
              (body_field body "password") identifier ra) evs) = true /\
  auth_radius_endpoint encode decode cfg env body identifier ra evs =
    Some {| res_status := 500;
            res_json := {| rj_success := false; rj_message := "Server error during authentication";
                           rj_filterId := None; rj_validation := None |} |}.
Proof.
  intros He Hu Hp.
  set (st0 := authenticateWithRadius encode cfg (body_field body "username") (body_field body "password") identifier ra).
  assert (Hst0 : at_sends st0 = 0%nat /\ at_timer st0 = None /\ exists msg, at_settled st0 = Some (SRejected msg)).
  { subst st0; unfold authenticateWithRadius; rewrite He.
    case_match; unfold_handlers; simpl; eauto. }
  destruct Hst0 as (Hs0 & Ht0 & msg & Hset0).
  destruct (run_counts decode cfg evs st0) as (_ & -> & _ & _).
  assert (Hset := run_settled decode cfg evs st0 _ Hset0).
  destruct (run_inv decode cfg evs st0 (start_inv encode cfg _ _ identifier ra)) as (_ & _ & _ & _ & Hiff & _).
  split; [done|]. split; [by apply run_timer_none|]. split.
  - destruct (at_client_closed _) eqn:Hc; [done|].
    rewrite (proj2 Hiff eq_refl) in Hset. discriminate.
  - rewrite (endpoint_exchange _ _ _ _ _ _ _ _ Hu Hp). fold st0. by rewrite Hset.
Qed.

(** The identifier [Math.floor(Math.random() * 256)] always lies in 0..255,
    the range of the one-byte RADIUS identifier field, and every value of that
    range can be drawn. *)
Theorem random_identifier_range :
  (forall k, 0 <= k < 2 ^ 53 -> 0 <= random_identifier k <= 255) /\
  (forall i, 0 <= i <= 255 -> exists k, 0 <= k < 2 ^ 53 /\ random_identifier k = i).
Proof.
  unfold random_identifier. split.
  - intros k Hk. split.
    + apply Z.div_pos; lia.
    + assert (k * 256 / 2 ^ 53 < 256); [|lia].
      apply Z.div_lt_upper_bound; lia.
  - intros i Hi. exists (i * 2 ^ 45). split; [lia|].
    replace (i * 2 ^ 45 * 256) with (i * 2 ^ 53) by (rewrite <- Z.mul_assoc; reflexivity).
    apply Z.div_mul. lia.
Qed.

(** The handler reads only [username] and [password] from the body: two
    bodies that agree on these give the same response, whatever [client_mac],
    [client_ip], [node_mac] or any other field hold. *)
Theorem handler_uses_only_credentials encode decode (cfg : config) (env : environment)
    (b1 b2 : gmap string jsval) (identifier : Z) (ra : bytes) (evs : list event) :
  b1 !! "username" = b2 !! "username" -> b1 !! "password" = b2 !! "password" ->
  auth_radius_endpoint encode decode cfg env b1 identifier ra evs =
    auth_radius_endpoint encode decode cfg env b2 identifier ra evs.
Proof.
  intros Hu Hp. unfold auth_radius_endpoint, auth_radius_handler, body_field.
  by rewrite Hu, Hp.
Qed.

(** A successful [client.send] callback only logs: the attempt stays pending,
    its socket open and its 10 s timer scheduled. *)
Theorem send_success_keeps_attempt_pending encode decode (cfg : config) (u p : jsval)
    (identifier : Z) (ra : bytes) (evs : list event) :
  at_settled (run decode cfg (authenticateWithRadius encode cfg u p identifier ra) evs) = None ->
  at_settled (step decode cfg (EvSendCallback None)
    (run decode cfg (authenticateWithRadius encode cfg u p identifier ra) evs)) = None /\
  at_client_closed (step decode cfg (EvSendCallback None)
    (run decode cfg (authenticateWithRadius encode cfg u p identifier ra) evs)) = false /\
  at_timer (step decode cfg (EvSendCallback None)
    (run decode cfg (authenticateWithRadius encode cfg u p identifier ra) evs)) = Some RADIUS_TIMEOUT_MS.
Proof.
  assert (Hinv := run_inv decode cfg evs _ (start_inv encode cfg u p identifier ra)).
  revert Hinv.
  generalize (run decode cfg (authenticateWithRadius encode cfg u p identifier ra) evs) as st.
  intros st. unfold attempt_inv. destruct st; unfold_handlers; crush_attempt.
Qed.

(** An Access-Accept whose Filter-Id is the empty string is treated like one
    without Filter-Id: the handler answers 403 with [filterId: null] and the
    deny message. *)
Theorem empty_filter_id_reported_null decode (cfg : config) (env : environment) (m : bytes)
    (r : radius_packet) :
  decode m (RADIUS_SECRET cfg) = Ok r ->
  rp_code r = "Access-Accept"%string ->
  rp_attributes r !! "Filter-Id" = Some (JStr "") ->
  respond cfg env (message_settlement decode cfg m) =
    {| res_status := 403;
       res_json := {| rj_success := false; rj_message := ACCESS_DENIED_MESSAGE cfg;
                      rj_filterId := Some JNull;
                      rj_validation := Some ("error"%string, ("Access denied - " ++ ACCESS_DENIED_MESSAGE cfg)%string) |} |}.
Proof.
  intros Hd Hc Hf. unfold message_settlement. rewrite Hd, Hc. simpl.
  unfold respond, accept_result, filter_id_of. simpl. by rewrite Hf.
Qed.

(** Any decoded response whose code is not Access-Accept (Access-Reject,
    Access-Challenge, ...) gives 401 with the fixed message "Authentication
    failed. Please check your credentials." and no Filter-Id. *)
Theorem non_accept_response_body decode (cfg : config) (env : environment) (m : bytes)
    (r : radius_packet) :
  decode m (RADIUS_SECRET cfg) = Ok r ->
  rp_code r <> "Access-Accept"%string ->
  respond cfg env (message_settlement decode cfg m) =
    {| res_status := 401;
       res_json := {| rj_success := false;
                      rj_message := "Authentication failed. Please check your credentials.";
                      rj_filterId := None; rj_validation := None |} |}.
Proof.
  intros Hd Hc. unfold message_settlement. rewrite Hd.
  by destruct (String.eqb_spec (rp_code r) "Access-Accept").
Qed.

(** The response datagram may be delivered before or after the send callback
    reports success: the attempt settles the same way in both orders. *)
Theorem send_callback_and_response_commute encode decode (cfg : config) (u p : jsval)
    (identifier : Z) (ra : bytes) (evs : list event) (m : bytes) :
  at_settled (run decode cfg (authenticateWithRadius encode cfg u p identifier ra) evs) = None ->
  at_settled (run decode cfg (authenticateWithRadius encode cfg u p identifier ra)
                (evs ++ [EvSendCallback None; EvMessage m])) =
  at_settled (run decode cfg (authenticateWithRadius encode cfg u p identifier ra)
                (evs ++ [EvMessage m; EvSendCallback None])).
Proof.
  rewrite !run_app.
  assert (Hinv := run_inv decode cfg evs _ (start_inv encode cfg u p identifier ra)).
  revert Hinv.
  generalize (run decode cfg (authenticateWithRadius encode cfg u p identifier ra) evs) as st.
  intros st. unfold attempt_inv, run. destruct st; simpl; unfold_handlers; crush_attempt.
Qed.





(* ================================================================== *)
(** ** Concrete instances of the further properties *)

Lemma auth_responses_logged_witness :
  auth_radius_endpoint radius_encode radius_decode default_config ∅ alice 9 sample_ra
    [EvSendCallback None; EvTimeout] =
    Some {| res_status := 401;
            res_json := {| rj_success := false; rj_message := "Authentication server timed out";
                           rj_filterId := None; rj_validation := None |} |} /\
  (is_Some (request_log_line "POST" "/auth/radius" 401 5) <-> 401 <> 200 \/ 1000 < 5).
Proof.
  split; [concrete|].
  apply (auth_responses_logged radius_encode radius_decode default_config ∅ alice 9 sample_ra
           [EvSendCallback None; EvTimeout]
           {| res_status := 401;
              res_json := {| rj_success := false; rj_message := "Authentication server timed out";
                             rj_filterId := None; rj_validation := None |} |} 5).
  concrete.
Defined.

Lemma bad_port_fails_every_attempt_witness :
  send_sync_error (RADIUS_PORT (load_config {[ "RADIUS_PORT" := "radius" ]})) =
    Some "Port should be > 0 and < 65536"%string /\
  truthy (body_field alice "username") = true /\ truthy (body_field alice "password") = true /\
  at_sends (run radius_decode (load_config {[ "RADIUS_PORT" := "radius" ]})
    (authenticateWithRadius radius_encode (load_config {[ "RADIUS_PORT" := "radius" ]})
       (body_field alice "username") (body_field alice "password") 9 sample_ra) [EvTimeout]) = 0%nat /\
  at_timer (run radius_decode (load_config {[ "RADIUS_PORT" := "radius" ]})
    (authenticateWithRadius radius_encode (load_config {[ "RADIUS_PORT" := "radius" ]})
       (body_field alice "username") (body_field alice "password") 9 sample_ra) [EvTimeout]) = None /\
  at_client_closed (run radius_decode (load_config {[ "RADIUS_PORT" := "radius" ]})
    (authenticateWithRadius radius_encode (load_config {[ "RADIUS_PORT" := "radius" ]})
       (body_field alice "username") (body_field alice "password") 9 sample_ra) [EvTimeout]) = true /\
  auth_radius_endpoint radius_encode radius_decode (load_config {[ "RADIUS_PORT" := "radius" ]}) ∅ alice 9
    sample_ra [EvTimeout] =
    Some {| res_status := 500;
            res_json := {| rj_success := false; rj_message := "Server error during authentication";
                           rj_filterId := None; rj_validation := None |} |}.
Proof.
  split; [concrete|]. split; [concrete|]. split; [concrete|].
  apply (bad_port_fails_every_attempt radius_encode radius_decode (load_config {[ "RADIUS_PORT" := "radius" ]})
           ∅ alice 9 sample_ra [EvTimeout] "Port should be > 0 and < 65536"); concrete.
Defined.

Lemma handler_uses_only_credentials_witness :
  alice !! "username" = (<["remember" := JBool true]> alice) !! "username" /\
  alice !! "password" = (<["remember" := JBool true]> alice) !! "password" /\
  auth_radius_endpoint radius_encode radius_decode default_config ∅ alice 9 sample_ra
    [EvSendCallback None; EvTimeout] =
  auth_radius_endpoint radius_encode radius_decode default_config ∅ (<["remember" := JBool true]> alice) 9
    sample_ra [EvSendCallback None; EvTimeout].
Proof.
  split; [concrete|]. split; [concrete|].
  apply (handler_uses_only_credentials radius_encode radius_decode default_config ∅ alice
           (<["remember" := JBool true]> alice) 9 sample_ra [EvSendCallback None; EvTimeout]); concrete.
Defined.

Lemma send_success_keeps_attempt_pending_witness :
  at_settled (run radius_decode default_config
    (authenticateWithRadius radius_encode default_config (JStr "alice") (JStr "correct") 9 sample_ra) []) = None /\
  at_settled (step radius_decode default_config (EvSendCallback None) (run radius_decode default_config
    (authenticateWithRadius radius_encode default_config (JStr "alice") (JStr "correct") 9 sample_ra) [])) = None /\
  at_client_closed (step radius_decode default_config (EvSendCallback None) (run radius_decode default_config
    (authenticateWithRadius radius_encode default_config (JStr "alice") (JStr "correct") 9 sample_ra) [])) = false /\
  at_timer (step radius_decode default_config (EvSendCallback None) (run radius_decode default_config
    (authenticateWithRadius radius_encode default_config (JStr "alice") (JStr "correct") 9 sample_ra) [])) =
    Some RADIUS_TIMEOUT_MS.
Proof.
  split; [concrete|].
  apply (send_success_keeps_attempt_pending radius_encode radius_decode default_config
           (JStr "alice") (JStr "correct") 9 sample_ra []); concrete.
Defined.

Lemma empty_filter_id_reported_null_witness :
  radius_decode (accept_packet 9 (List.repeat 0 16) "") (RADIUS_SECRET default_config) =
    Ok (decoded (accept_packet 9 (List.repeat 0 16) "")) /\
  rp_code (decoded (accept_packet 9 (List.repeat 0 16) "")) = "Access-Accept"%string /\
  rp_attributes (decoded (accept_packet 9 (List.repeat 0 16) "")) !! "Filter-Id" = Some (JStr "") /\
  respond default_config ∅ (message_settlement radius_decode default_config (accept_packet 9 (List.repeat 0 16) "")) =
    {| res_status := 403;
       res_json := {| rj_success := false; rj_message := ACCESS_DENIED_MESSAGE default_config;
                      rj_filterId := Some JNull;
                      rj_validation := Some ("error"%string, ("Access denied - " ++ ACCESS_DENIED_MESSAGE default_config)%string) |} |}.
Proof.
  split; [concrete|]. split; [concrete|]. split; [concrete|].
  apply (empty_filter_id_reported_null radius_decode default_config ∅ (accept_packet 9 (List.repeat 0 16) "")
           (decoded (accept_packet 9 (List.repeat 0 16) ""))); concrete.
Defined.

Lemma non_accept_response_body_witness :
  radius_decode ([3; 9; 0; 20] ++ List.repeat 0 16) (RADIUS_SECRET default_config) =
    Ok (decoded ([3; 9; 0; 20] ++ List.repeat 0 16)) /\
  rp_code (decoded ([3; 9; 0; 20] ++ List.repeat 0 16)) <> "Access-Accept"%string /\
  respond default_config ∅ (message_settlement radius_decode default_config ([3; 9; 0; 20] ++ List.repeat 0 16)) =
    {| res_status := 401;
       res_json := {| rj_success := false;
                      rj_message := "Authentication failed. Please check your credentials.";
                      rj_filterId := None; rj_validation := None |} |}.
Proof.
  split; [concrete|]. split; [concrete|].
  apply (non_accept_response_body radius_decode default_config ∅ ([3; 9; 0; 20] ++ List.repeat 0 16)
           (decoded ([3; 9; 0; 20] ++ List.repeat 0 16))); concrete.
Defined.

Lemma send_callback_and_response_commute_witness :
  at_settled (run radius_decode default_config
    (authenticateWithRadius radius_encode default_config (JStr "alice") (JStr "correct") 9 sample_ra) []) = None /\
  at_settled (run radius_decode default_config
    (authenticateWithRadius radius_encode default_config (JStr "alice") (JStr "correct") 9 sample_ra)
    ([] ++ [EvSendCallback None; EvMessage (accept_packet 9 (List.repeat 0 16) "StaffPolicy")])) =
  at_settled (run radius_decode default_config
    (authenticateWithRadius radius_encode default_config (JStr "alice") (JStr "correct") 9 sample_ra)
    ([] ++ [EvMessage (accept_packet 9 (List.repeat 0 16) "StaffPolicy"); EvSendCallback None])).
Proof.
  split; [concrete|].
  apply (send_callback_and_response_commute radius_encode radius_decode default_config
           (JStr "alice") (JStr "correct") 9 sample_ra [] (accept_packet 9 (List.repeat 0 16) "StaffPolicy"));
    concrete.
Defined.




(** [GET /api/health] (lines 103-119) reports the RADIUS host and port and the
    allowed Filter-Id, but neither the shared secret nor the denial message:
    two configurations that differ only there give the same response body. *)
Theorem health_hides_secret (cfg1 cfg2 : config) (timestamp hostname : string) :
  RADIUS_HOST cfg1 = RADIUS_HOST cfg2 -> RADIUS_PORT cfg1 = RADIUS_PORT cfg2 ->
  ALLOWED_FILTER_ID cfg1 = ALLOWED_FILTER_ID cfg2 ->
  health_json cfg1 timestamp hostname = health_json cfg2 timestamp hostname.
Proof. intros Hh Hp Hf. unfold health_json. by rewrite Hh, Hp, Hf. Qed.


Lemma health_hides_secret_witness :
  RADIUS_HOST default_config = RADIUS_HOST (load_config {[ "RADIUS_SECRET" := "s3cret" ]}) /\
  RADIUS_PORT default_config = RADIUS_PORT (load_config {[ "RADIUS_SECRET" := "s3cret" ]}) /\
  ALLOWED_FILTER_ID default_config = ALLOWED_FILTER_ID (load_config {[ "RADIUS_SECRET" := "s3cret" ]}) /\
  health_json default_config "2026-01-01T00:00:00.000Z" "web-1" =
  health_json (load_config {[ "RADIUS_SECRET" := "s3cret" ]}) "2026-01-01T00:00:00.000Z" "web-1".
Proof.
  split; [concrete|]. split; [concrete|]. split; [concrete|].
  apply health_hides_secret; concrete.
Defined.
